(** * Expression: the cast operators of [expression/core/typing.py]

    The module exports three conversion helpers, [upcast], [downcast] and
    [try_downcast].  They are three-line Python functions whose whole
    behaviour is decided by the runtime primitives they call: [isinstance],
    [typing.get_origin], [typing.cast], the [assert] statement, the boolean
    operators [or] / [and], and the identity test [is not None].

    The development therefore has two layers:

    - a small model of the Python object store (objects have an address,
      which is their identity, a runtime class and a payload; classes,
      parameterized generic aliases and typing special forms are objects
      too) together with the runtime primitives over it;
    - the three functions, written in a state-and-exception monad over that
      store so that "does not mutate", "returns the same object" and
      "raises" are all things the theorems can talk about.

    Scope of the runtime model (CPython 3.10 and later).  Instance checks
    are modelled for classes whose metaclass is [type] (the MRO walk),
    [ABCMeta] (the MRO walk plus the virtual subclasses the ABC recognises),
    [typing._ProtocolMeta] without [@runtime_checkable] and [typing.Any]
    (a [TypeError]); for subscripted generics of the [typing] module
    ([List[int]]: a [TypeError]; [Union[...]] and [Optional[...]]: the
    arguments are tried in turn); and for special forms, type variables and
    plain values (a [TypeError]).  The store has no tuples, no bare aliases
    ([typing.List]) and no [X | Y] unions, so these are not targets of the
    model.  User-defined [__instancecheck__], [__class__], [__bool__] or
    [__format__] hooks and running with assertions stripped ([python -O])
    are outside the model.

    The store holds what a program can observe of its objects.  What
    [ABCMeta] remembers between instance checks is kept apart from it, in
    the module [Cached], where the three functions are embedded a second
    time over the store and those caches. *)

From Stdlib Require Import PArith ZArith List String Bool Lia.
Import ListNotations.
Open Scope string_scope.

(** ** The object store *)

(** An address is the identity of an object: [a is b] is address equality. *)
Definition addr := positive.

(** How the metaclass of a class answers [isinstance]. *)
Inductive flavour :=
| Plain         (* metaclass [type] *)
| Abstract      (* metaclass [ABCMeta]; also a concrete subclass of a Protocol *)
| ProtocolOnly  (* a [typing.Protocol] class that is not [@runtime_checkable] *)
| AnyMeta.      (* [typing.Any]: [isinstance] refuses, [issubclass] walks the MRO *)

Inductive payload :=
| PInt (n : Z)
| PStr (s : string)
| PList (items : list addr)
| PInst (fields : list (string * addr))
    (* instance of a user class, with its attribute dictionary *)
| PClass (name : string) (mro : list addr) (fl : flavour) (virtual : list addr)
    (* a class: [__mro__] (the class itself first) and, for an ABC, the
       classes it recognises as virtual subclasses (registered with it or
       with one of its subclasses) *)
| PAlias (origin : addr) (args : list addr)
    (* a parameterized generic of the [typing] module, [Sequence[int]] or
       [Optional[int]]; [origin] is what [typing.get_origin] answers for
       it, [args] are its [__args__] *)
| PForm (name : string).
    (* a typing special form or a type variable: [Union], [Literal], [_T] *)

Record object := Obj { ob_type : addr; ob_data : payload }.

(** The store is total: every address holds some object.  *)
Definition store := addr -> object.

(** The [None] singleton lives at a reserved address; the store entry at
    that address only supplies its class ([NoneType]). *)
Definition rNone : addr := 1%positive.

Definition is_None (r : addr) : bool := Pos.eqb r rNone.

(** Payload of a reference; [None] has none. *)
Definition content (st : store) (r : addr) : option payload :=
  if is_None r then None else Some (ob_data (st r)).

(** [type(r)] *)
Definition type_of (st : store) (r : addr) : addr := ob_type (st r).

(** [c.__mro__], empty when [c] is not a class. *)
Definition mro_of (st : store) (c : addr) : list addr :=
  match content st c with
  | Some (PClass _ m _ _) => m
  | _ => []
  end.

(** The virtual subclasses an ABC recognises; empty for anything else. *)
Definition virtual_of (st : store) (c : addr) : list addr :=
  match content st c with
  | Some (PClass _ _ Abstract v) => v
  | _ => []
  end.

Definition mem (a : addr) (l : list addr) : bool := existsb (Pos.eqb a) l.

(** ** Outcomes, exceptions and the monad *)

(** An f-string, kept as its pieces: literal text and formatted values. *)
Inductive piece :=
| Lit (s : string)
| Fmt (o : addr).

Definition message := list piece.

Inductive exn :=
| AssertionError (msg : message)
| TypeError.

Inductive outcome (A : Type) :=
| Ret (a : A)
| Raise (e : exn).
Arguments Ret {A} a.
Arguments Raise {A} e.

(** A computation reads and may write the store, and returns or raises. *)
Definition M (A : Type) := store -> outcome A * store.

Definition ret {A} (a : A) : M A := fun st => (Ret a, st).

Definition raise {A} (e : exn) : M A := fun st => (Raise e, st).

Definition bind {A B} (m : M A) (k : A -> M B) : M B :=
  fun st =>
    match m st with
    | (Ret a, st') => k a st'
    | (Raise e, st') => (Raise e, st')
    end.

Notation "x <- m ;; k" := (bind m (fun x => k))
  (at level 61, m at next level, right associativity).
Notation "m ;;; k" := (bind m (fun _ => k))
  (at level 61, right associativity).

(** ** Runtime primitives *)

(** [issubclass(c, cls)] for a class [cls] whose metaclass is [type] or
    [ABCMeta]: [cls] is in the MRO of [c], or one of the virtual subclasses
    of [cls] is. *)
Definition subclass_b (st : store) (c cls : addr) : bool :=
  mem cls (mro_of st c)
  || existsb (fun r => mem r (mro_of st c)) (virtual_of st cls).

(** [issubclass(c, cls)], as the check of a [Union] calls it on each of its
    arguments. *)
Definition issubclass_raw (st : store) (c cls : addr) : outcome bool :=
  match content st cls with
  | Some (PClass _ _ Plain _) => Ret (Pos.eqb c cls || subclass_b st c cls)
  | Some (PClass _ _ Abstract _) => Ret (subclass_b st c cls)
  | Some (PClass _ _ AnyMeta _) => Ret (mem cls (mro_of st c))
  | _ => Raise TypeError
  end.

(** [typing._UnionGenericAlias.__subclasscheck__]: the arguments are tried
    in order, the first one that accepts decides, and an argument that
    cannot be checked raises when it is reached. *)
Fixpoint union_check (st : store) (c : addr) (args : list addr)
  : outcome bool :=
  match args with
  | [] => Ret false
  | a :: rest =>
      match issubclass_raw st c a with
      | Ret true => Ret true
      | Ret false => union_check st c rest
      | Raise e => Raise e
      end
  end.

(** Is [o] the special form [typing.Union]? *)
Definition is_Union (st : store) (o : addr) : bool :=
  match content st o with
  | Some (PForm name) => String.eqb name "typing.Union"
  | _ => false
  end.

(** [isinstance(inst, cls)], after CPython's [PyObject_IsInstance]: an exact
    type match answers at once; otherwise the type of [cls] decides. *)
Definition isinstance_raw (st : store) (inst cls : addr) : outcome bool :=
  if Pos.eqb (type_of st inst) cls then Ret true
  else
    match content st cls with
    | Some (PClass _ _ Plain _) => Ret (subclass_b st (type_of st inst) cls)
    | Some (PClass _ _ Abstract _) => Ret (subclass_b st (type_of st inst) cls)
    | Some (PClass _ _ ProtocolOnly _) => Raise TypeError
        (* Instance and class checks can only be used with
           @runtime_checkable protocols *)
    | Some (PClass _ _ AnyMeta _) => Raise TypeError
        (* typing.Any cannot be used with isinstance() *)
    | Some (PAlias o args) =>
        if is_Union st o then union_check st (type_of st inst) args
        else Raise TypeError
        (* Subscripted generics cannot be used with class and instance
           checks *)
    | _ => Raise TypeError
        (* isinstance() arg 2 must be a type, a tuple of types, or a union *)
    end.

(** The check reads the store and leaves it as it is: no object changes.
    (The caches an ABC keeps are not part of the store, see [Cached].) *)
Definition isinstance (inst cls : addr) : M bool :=
  fun st => (isinstance_raw st inst cls, st).

(** [typing.get_origin(tp)]: the origin of a parameterized generic, [None]
    for everything else. *)
Definition get_origin_raw (st : store) (tp : addr) : addr :=
  match content st tp with
  | Some (PAlias o _) => o
  | _ => rNone
  end.

Definition get_origin (tp : addr) : M addr :=
  fun st => (Ret (get_origin_raw st tp), st).

(** Truth value of an object, as [or] tests it. *)
Definition truthy (st : store) (r : addr) : bool :=
  match content st r with
  | None => false
  | Some (PInt n) => negb (Z.eqb n 0)
  | Some (PStr s) => negb (String.eqb s EmptyString)
  | Some (PList l) => negb (Nat.eqb (List.length l) 0)
  | Some _ => true
  end.

(** [a or b] on two already evaluated operands (both operands of the [or]
    in [try_downcast] are free of effects). *)
Definition py_or (a b : addr) : M addr :=
  fun st => (Ret (if truthy st a then a else b), st).

(** [typing.cast(typ, val)] returns [val]; the type argument is not looked at. *)
Definition cast (val : addr) : addr := val.

(** [assert cond, msg] *)
Definition py_assert (cond : bool) (msg : message) : M unit :=
  if cond then ret tt else raise (AssertionError msg).

(** ** The cast operators (typing.py, lines 87-125) *)

Definition upcast (type expr : addr) : M addr :=
  ret expr.

Definition downcast_message (type expr : addr) : message :=
  [Lit "The type of expression "; Fmt expr;
   Lit " is not a supertype of "; Fmt type].

Definition downcast (type expr : addr) : M addr :=
  ok <- isinstance expr type ;;
  py_assert ok (downcast_message type expr) ;;;
  ret (cast expr).

Definition try_downcast (type_ expr : addr) : M addr :=
  o <- get_origin type_ ;;
  origin <- py_or o type_ ;;
  if negb (is_None origin) then
    ok <- isinstance expr origin ;;
    if ok then ret (cast expr) else ret rNone
  else ret rNone.

(** The erased target of [try_downcast]: [get_origin(type_) or type_]. *)
Definition erased (st : store) (type_ : addr) : addr :=
  if truthy st (get_origin_raw st type_) then get_origin_raw st type_ else type_.

(** A result of [try_downcast] is present when it is not [None]. *)
Definition present (r : addr) : Prop := r <> rNone.

(** ** Instance and subclass relations *)





(** ** A concrete store

    The builtins and typing objects the examples need, the protocol class
    [SupportsLessThan] and the type variable [_T] of typing.py, and the
    [Shape] / [Circle] / [Square] classes of the end-to-end scenario. *)
Module World.

Definition c_object : addr := 2%positive.
Definition c_type : addr := 3%positive.
Definition c_NoneType : addr := 4%positive.
Definition c_int : addr := 5%positive.
Definition c_str : addr := 6%positive.
Definition c_list : addr := 7%positive.
Definition c_ABCMeta : addr := 8%positive.
Definition c_Sequence : addr := 9%positive.          (* collections.abc.Sequence *)
Definition c_SpecialForm : addr := 10%positive.      (* typing._SpecialForm *)
Definition c_TypeVar : addr := 11%positive.
Definition c_GenericAlias : addr := 12%positive.     (* typing._GenericAlias *)
Definition c_ProtocolMeta : addr := 13%positive.
Definition c_Generic : addr := 14%positive.
Definition c_Protocol : addr := 15%positive.
Definition c_SupportsLessThan : addr := 16%positive. (* typing.py, line 28 *)
Definition c_Version : addr := 17%positive.  (* class Version(SupportsLessThan) *)
Definition c_Shape : addr := 18%positive.
Definition c_Circle : addr := 19%positive.           (* class Circle(Shape) *)
Definition c_Square : addr := 20%positive.           (* class Square(Shape) *)
Definition c_AnyMeta : addr := 21%positive.          (* typing._AnyMeta *)
Definition c_UnionGenericAlias : addr := 22%positive.

Definition t_Any : addr := 30%positive.              (* typing.Any *)
Definition t_Union : addr := 31%positive.            (* typing.Union *)
Definition t_T : addr := 32%positive.                (* _T = TypeVar("_T") *)
Definition t_Sequence_int : addr := 33%positive.     (* Sequence[int] *)
Definition t_Sequence_str : addr := 34%positive.     (* Sequence[str] *)
Definition t_List_int : addr := 35%positive.         (* List[int] *)
Definition t_Optional_int : addr := 36%positive.     (* Optional[int] *)

Definition v_five : addr := 40%positive.             (* 5 *)
Definition v_a : addr := 41%positive.                (* "a" *)
Definition v_b : addr := 42%positive.                (* "b" *)
Definition v_strs : addr := 43%positive.             (* ["a", "b"] *)
Definition v_circle : addr := 45%positive.           (* Circle(radius=5) *)

(** The entry at address 1 is [None]: only its class is read.  For
    [collections.abc.Sequence] the intermediate ABCs between it and [object]
    are left out of the MRO, and its virtual subclasses are those present
    here ([str] is registered with it, [list] with its subclass
    [MutableSequence]); the private bases of the [typing] alias classes are
    left out as well.  Unused addresses hold a bare [object()]. *)
Definition py0 : store := fun a =>
  match a with
  | 1 => Obj c_NoneType (PInst [])
  | 2 => Obj c_type (PClass "object" [c_object] Plain [])
  | 3 => Obj c_type (PClass "type" [c_type; c_object] Plain [])
  | 4 => Obj c_type (PClass "NoneType" [c_NoneType; c_object] Plain [])
  | 5 => Obj c_type (PClass "int" [c_int; c_object] Plain [])
  | 6 => Obj c_type (PClass "str" [c_str; c_object] Plain [])
  | 7 => Obj c_type (PClass "list" [c_list; c_object] Plain [])
  | 8 => Obj c_type (PClass "ABCMeta" [c_ABCMeta; c_type; c_object] Plain [])
  | 9 => Obj c_ABCMeta
           (PClass "Sequence" [c_Sequence; c_object] Abstract [c_str; c_list])
  | 10 => Obj c_type (PClass "_SpecialForm" [c_SpecialForm; c_object] Plain [])
  | 11 => Obj c_type (PClass "TypeVar" [c_TypeVar; c_object] Plain [])
  | 12 => Obj c_type (PClass "_GenericAlias" [c_GenericAlias; c_object] Plain [])
  | 13 => Obj c_type
            (PClass "_ProtocolMeta"
               [c_ProtocolMeta; c_ABCMeta; c_type; c_object] Plain [])
  | 14 => Obj c_type (PClass "Generic" [c_Generic; c_object] Plain [])
  | 15 => Obj c_ProtocolMeta
            (PClass "Protocol" [c_Protocol; c_Generic; c_object] ProtocolOnly [])
  | 16 => Obj c_ProtocolMeta
            (PClass "SupportsLessThan"
               [c_SupportsLessThan; c_Protocol; c_Generic; c_object]
               ProtocolOnly [])
  | 17 => Obj c_ProtocolMeta
            (PClass "Version"
               [c_Version; c_SupportsLessThan; c_Protocol; c_Generic; c_object]
               Abstract [])
  | 18 => Obj c_type (PClass "Shape" [c_Shape; c_object] Plain [])
  | 19 => Obj c_type (PClass "Circle" [c_Circle; c_Shape; c_object] Plain [])
  | 20 => Obj c_type (PClass "Square" [c_Square; c_Shape; c_object] Plain [])
  | 21 => Obj c_type (PClass "_AnyMeta" [c_AnyMeta; c_type; c_object] Plain [])
  | 22 => Obj c_type
            (PClass "_UnionGenericAlias"
               [c_UnionGenericAlias; c_GenericAlias; c_object] Plain [])
  | 30 => Obj c_AnyMeta (PClass "Any" [t_Any; c_object] AnyMeta [])
  | 31 => Obj c_SpecialForm (PForm "typing.Union")
  | 32 => Obj c_TypeVar (PForm "~_T")
  | 33 => Obj c_GenericAlias (PAlias c_Sequence [c_int])
  | 34 => Obj c_GenericAlias (PAlias c_Sequence [c_str])
  | 35 => Obj c_GenericAlias (PAlias c_list [c_int])
  | 36 => Obj c_UnionGenericAlias (PAlias t_Union [c_int; c_NoneType])
  | 40 => Obj c_int (PInt 5)
  | 41 => Obj c_str (PStr "a")
  | 42 => Obj c_str (PStr "b")
  | 43 => Obj c_list (PList [v_a; v_b])
  | 44 => Obj c_list (PList [v_five; v_five])
  | 45 => Obj c_Circle (PInst [("radius", v_five)])
  | 46 => Obj c_Version (PInst [])
  | _ => Obj c_object (PInst [])
  end%positive.

(** [str()] of the two objects formatted in the rendered example; it is a
    partial table, every other object is left as an ellipsis. *)
Definition str_of (r : addr) : string :=
  match r with
  | 40 => "5"
  | 6 => "<class 'str'>"
  | _ => "..."
  end%positive.

End World.

(** The text of a message, given the [str()] of the formatted values. *)
Fixpoint render (str_of : addr -> string) (m : message) : string :=
  match m with
  | [] => EmptyString
  | Lit s :: m' => s ++ render str_of m'
  | Fmt o :: m' => str_of o ++ render str_of m'
  end.






(** ** The instance-check caches of ABCs

    [ABCMeta] remembers, for each ABC, the classes it has accepted
    ([_abc_cache]) and refused ([_abc_negative_cache]); a later check of the
    same class is answered from there.  The caches are runtime state that
    outlives a call, so the three functions are embedded once more over a
    store together with these caches.  (The caches of the sub-ABCs that the
    real check consults on its way are not kept apart: an ABC stands here
    for itself and those, as in [virtual_of].) *)
Module Cached.

(** Pairs (ABC, class). *)
Record caches := Caches {
  accepted : list (addr * addr);
  refused : list (addr * addr)
}.


Definition world := (store * caches)%type.

Definition M (A : Type) := world -> outcome A * world.

Definition ret {A} (a : A) : M A := fun w => (Ret a, w).

Definition raise {A} (e : exn) : M A := fun w => (Raise e, w).

Definition bind {A B} (m : M A) (k : A -> M B) : M B :=
  fun w =>
    match m w with
    | (Ret a, w') => k a w'
    | (Raise e, w') => (Raise e, w')
    end.

Declare Scope cached_scope.
Notation "x <- m ;; k" := (bind m (fun x => k))
  (at level 61, m at next level, right associativity) : cached_scope.
Notation "m ;;; k" := (bind m (fun _ => k))
  (at level 61, right associativity) : cached_scope.
Local Open Scope cached_scope.

Definition cached (l : list (addr * addr)) (cls c : addr) : bool :=
  existsb (fun p => Pos.eqb (fst p) cls && Pos.eqb (snd p) c) l.

(** [ABCMeta.__subclasscheck__(cls, c)]: answer from the caches when [c] is
    there, otherwise decide and remember the answer. *)
Definition abc_subclasscheck (cls c : addr) : M bool :=
  fun w =>
    let (st, ch) := w in
    if cached (accepted ch) cls c then (Ret true, w)
    else if cached (refused ch) cls c then (Ret false, w)
    else if subclass_b st c cls
         then (Ret true, (st, Caches ((cls, c) :: accepted ch) (refused ch)))
         else (Ret false, (st, Caches (accepted ch) ((cls, c) :: refused ch))).

Definition issubclass (c cls : addr) : M bool :=
  fun w =>
    match content (fst w) cls with
    | Some (PClass _ _ Abstract _) => abc_subclasscheck cls c w
    | _ => (issubclass_raw (fst w) c cls, w)
    end.

Fixpoint union_check (c : addr) (args : list addr) : M bool :=
  match args with
  | [] => ret false
  | a :: rest =>
      ok <- issubclass c a ;;
      if ok then ret true else union_check c rest
  end.

(** [isinstance(inst, cls)] with the caches: only an ABC (as the target or
    as an argument of a [Union]) touches them. *)
Definition isinstance (inst cls : addr) : M bool :=
  fun w =>
    let st := fst w in
    if Pos.eqb (type_of st inst) cls then (Ret true, w)
    else
      match content st cls with
      | Some (PClass _ _ Abstract _) =>
          abc_subclasscheck cls (type_of st inst) w
      | Some (PAlias o args) =>
          if is_Union st o then union_check (type_of st inst) args w
          else (Raise TypeError, w)
      | _ => (isinstance_raw st inst cls, w)
      end.

Definition get_origin (tp : addr) : M addr :=
  fun w => (Ret (get_origin_raw (fst w) tp), w).

Definition py_or (a b : addr) : M addr :=
  fun w => (Ret (if truthy (fst w) a then a else b), w).

Definition py_assert (cond : bool) (msg : message) : M unit :=
  if cond then ret tt else raise (AssertionError msg).

(** typing.py, lines 87-125, over the store and the caches. *)

Definition upcast (type expr : addr) : M addr :=
  ret expr.

Definition downcast (type expr : addr) : M addr :=
  ok <- isinstance expr type ;;
  py_assert ok (downcast_message type expr) ;;;
  ret (cast expr).

Definition try_downcast (type_ expr : addr) : M addr :=
  o <- get_origin type_ ;;
  origin <- py_or o type_ ;;
  if negb (is_None origin) then
    ok <- isinstance expr origin ;;
    if ok then ret (cast expr) else ret rNone
  else ret rNone.

(** The caches hold only true answers. *)
Definition consistent (st : store) (ch : caches) : Prop :=
  forall cls c,
    (cached (accepted ch) cls c = true -> subclass_b st c cls = true)
    /\ (cached (refused ch) cls c = true -> subclass_b st c cls = false).

(** [ch'] has every entry of [ch]. *)
Definition extends (ch ch' : caches) : Prop :=
  forall cls c,
    (cached (accepted ch) cls c = true -> cached (accepted ch') cls c = true)
    /\ (cached (refused ch) cls c = true -> cached (refused ch') cls c = true).

(** Run from a store [st] and caches [ch], the computation [m] has the
    outcome [r], leaves the store as it is, and ends with caches that still
    hold only true answers and have lost none. *)
Definition tracks {A} (m : M A) (st : store) (ch : caches) (r : outcome A)
  : Prop :=
  exists ch',
    m (st, ch) = (r, (st, ch')) /\ consistent st ch' /\ extends ch ch'.

End Cached.

(** * Properties *)

(** ** The runtime primitives *)

Section Runtime.

Variable st : store.






Lemma content_None : content st rNone = None.
Proof. reflexivity. Qed.







(** ** What the two checked casts compute *)

Lemma downcast_run (t v : addr) :
  downcast t v st =
  (match isinstance_raw st v t with
   | Ret true => Ret v
   | Ret false => Raise (AssertionError (downcast_message t v))
   | Raise e => Raise e
   end, st).
Proof.
  unfold downcast, bind, isinstance.
  destruct (isinstance_raw st v t) as [[|] | e]; reflexivity.
Qed.

Lemma try_downcast_run (t v : addr) :
  try_downcast t v st =
  (if is_None (erased st t) then Ret rNone
   else match isinstance_raw st v (erased st t) with
        | Ret true => Ret v
        | Ret false => Ret rNone
        | Raise e => Raise e
        end, st).
Proof.
  unfold try_downcast, bind, get_origin, py_or, isinstance. simpl.
  fold (erased st t).
  destruct (is_None (erased st t)); simpl; [reflexivity |].
  destruct (isinstance_raw st v (erased st t)) as [[|] | e]; reflexivity.
Qed.


End Runtime.

(** ** The end-to-end scenario of the specification *)

Import World.

Example scenario_downcast_Circle :
  downcast c_Circle v_circle py0 = (Ret v_circle, py0)
  /\ content py0 v_circle = Some (PInst [("radius", v_five)])
  /\ content py0 v_five = Some (PInt 5).
Proof. repeat split. Qed.

Example scenario_downcast_Square :
  downcast c_Square v_circle py0 =
  (Raise (AssertionError
            [Lit "The type of expression "; Fmt v_circle;
             Lit " is not a supertype of "; Fmt c_Square]), py0).
Proof. reflexivity. Qed.

Example downcast_message_text :
  exists m,
    downcast c_str v_five py0 = (Raise (AssertionError m), py0)
    /\ render str_of m
       = "The type of expression 5 is not a supertype of <class 'str'>".
Proof. eexists. split; reflexivity. Qed.

Example scenario_try_downcast :
  try_downcast c_Square v_circle py0 = (Ret rNone, py0)
  /\ try_downcast c_Circle v_circle py0 = (Ret v_circle, py0).
Proof. split; reflexivity. Qed.

(** The instance check on the targets that are not plain classes. *)
Example isinstance_on_special_targets :
  isinstance_raw py0 v_five t_Optional_int = Ret true
  /\ isinstance_raw py0 rNone t_Optional_int = Ret true
  /\ isinstance_raw py0 v_a t_Optional_int = Ret false
  /\ isinstance_raw py0 v_five t_List_int = Raise TypeError
  /\ isinstance_raw py0 v_five t_Union = Raise TypeError
  /\ isinstance_raw py0 v_five t_Any = Raise TypeError
  /\ isinstance_raw py0 v_five t_T = Raise TypeError
  /\ isinstance_raw py0 v_five c_Protocol = Raise TypeError
  /\ isinstance_raw py0 v_five c_SupportsLessThan = Raise TypeError
  /\ isinstance_raw py0 v_five c_Generic = Ret false
  /\ isinstance_raw py0 v_strs c_Sequence = Ret true
  /\ isinstance_raw py0 v_five v_five = Raise TypeError.
Proof. repeat split. Qed.

Example downcast_Optional :
  downcast t_Optional_int v_five py0 = (Ret v_five, py0)
  /\ try_downcast t_Optional_int v_five py0 = (Raise TypeError, py0).
Proof. split; reflexivity. Qed.

(** ** upcast *)

(** C5: [upcast] is the identity on its value argument and total.  For every
    store, every target [B] and every value [v], [upcast(B, v)] returns [v]
    itself; the answer depends neither on [B] nor on the store (no runtime
    check is made), the store is left as it was, and nothing is raised. *)
Theorem upcast_identity (st : store) (B v : addr) :
  upcast B v st = (Ret v, st).
Proof. reflexivity. Qed.

(** ** downcast *)




(** ** try_downcast *)









(** ** Properties shared by the casts *)

(** C6: the checked casts never fabricate a value.  Whenever [downcast]
    returns, and whenever [try_downcast] returns a present result, the
    result is the very object that was passed in, the store is untouched,
    and the instance check the cast performs ([isinstance(v, T)] for
    [downcast], [isinstance(v, get_origin(T) or T)] for [try_downcast]) has
    answered [True]. *)
Theorem casts_never_fabricate (st st' : store) (T v r : addr) :
  (downcast T v st = (Ret r, st') ->
     r = v /\ st' = st /\ isinstance_raw st v T = Ret true)
  /\ (try_downcast T v st = (Ret r, st') -> present r ->
      r = v /\ st' = st /\ isinstance_raw st v (erased st T) = Ret true).
Proof.
  split.
  - rewrite downcast_run.
    destruct (isinstance_raw st v T) as [[|] | e]; intros H; inversion H.
    repeat split.
  - rewrite try_downcast_run. unfold present.
    destruct (is_None (erased st T)).
    + intros H Hr. inversion H. congruence.
    + destruct (isinstance_raw st v (erased st T)) as [[|] | e];
        intros H Hr; inversion H; subst; try congruence.
      repeat split.
Qed.

Lemma casts_never_fabricate_witness :
  (v_circle = v_circle /\ py0 = py0
   /\ isinstance_raw py0 v_circle c_Shape = Ret true)
  /\ (v_strs = v_strs /\ py0 = py0
      /\ isinstance_raw py0 v_strs (erased py0 t_Sequence_int) = Ret true).
Proof.
  split.
  - apply (proj1 (casts_never_fabricate py0 py0 c_Shape v_circle v_circle)).
    reflexivity.
  - apply (proj2 (casts_never_fabricate py0 py0 t_Sequence_int v_strs v_strs)).
    + reflexivity.
    + discriminate.
Defined.

(** *** The caches of ABCs *)

Section CacheInvariant.

Variable st : store.


Lemma extends_refl (ch : Cached.caches) : Cached.extends ch ch.
Proof. intros cls c. tauto. Qed.







Lemma pure_tracks {A} (r : outcome A) (ch : Cached.caches) :
  Cached.consistent st ch ->
  Cached.tracks (fun w => (r, w)) st ch r.
Proof.
  intros Hc. exists ch. split; [reflexivity |]. split;
    [assumption | apply extends_refl].
Qed.








End CacheInvariant.











(** C10: upcast then downcast.  For every value [v] and all tokens [B] and
    [T] such that [isinstance(v, T)] holds, [downcast(T, upcast(B, v))]
    returns [v] itself and leaves the store as it was. *)
Theorem upcast_downcast_roundtrip (st : store) (B T v : addr) :
  isinstance_raw st v T = Ret true ->
  (u <- upcast B v ;; downcast T u) st = (Ret v, st).
Proof.
  intros Hi. unfold bind, upcast, ret. rewrite downcast_run, Hi. reflexivity.
Qed.

Lemma upcast_downcast_roundtrip_witness :
  (u <- upcast c_Shape v_circle ;; downcast c_Circle u) py0
  = (Ret v_circle, py0).
Proof.
  apply (upcast_downcast_roundtrip py0 c_Shape c_Circle v_circle).
  reflexivity.
Defined.

(** * Further properties of the cast operators *)

Section Composition.

Variable st : store.

Lemma issubclass_raise (c a : addr) (e : exn) :
  issubclass_raw st c a = Raise e -> e = TypeError.
Proof.
  unfold issubclass_raw.
  destruct (content st a) as [[| | | | ? ? [] ? | |] |];
    intros H; inversion H; reflexivity.
Qed.

Lemma union_check_raise (c : addr) (args : list addr) (e : exn) :
  union_check st c args = Raise e -> e = TypeError.
Proof.
  induction args as [| a rest IH]; simpl; [discriminate |].
  destruct (issubclass_raw st c a) as [[|] | e0] eqn:Ea.
  - discriminate.
  - exact IH.
  - intros H. inversion H; subst. eapply issubclass_raise; eassumption.
Qed.

(** The instance check raises nothing but [TypeError]. *)
Lemma isinstance_raise (v cls : addr) (e : exn) :
  isinstance_raw st v cls = Raise e -> e = TypeError.
Proof.
  unfold isinstance_raw.
  destruct (Pos.eqb (type_of st v) cls); [discriminate |].
  destruct (content st cls) as [[| | | | ? ? [] ? | o args |] |];
    try (intros H; inversion H; reflexivity).
  destruct (is_Union st o).
  - apply union_check_raise.
  - intros H; inversion H; reflexivity.
Qed.

(** Whether [issubclass] answers at all depends on its second argument
    only. *)
Lemma issubclass_answers (c c' a : addr) (b : bool) :
  issubclass_raw st c a = Ret b -> exists b', issubclass_raw st c' a = Ret b'.
Proof.
  unfold issubclass_raw.
  destruct (content st a) as [[| | | | ? ? [] ? | |] |];
    try discriminate; intros _; eexists; reflexivity.
Qed.

Lemma union_check_false_answers (c c' : addr) (args : list addr) :
  union_check st c args = Ret false ->
  exists b, union_check st c' args = Ret b.
Proof.
  induction args as [| a rest IH]; simpl.
  - intros _. now exists false.
  - destruct (issubclass_raw st c a) as [[|] | e0] eqn:Ea; try discriminate.
    intros H. destruct (issubclass_answers c c' a _ Ea) as [b' ->].
    destruct b'; [now exists true | now apply IH].
Qed.

(** A target that has answered [False] for one value answers for every
    value. *)
Lemma isinstance_false_answers (v v' cls : addr) :
  isinstance_raw st v cls = Ret false ->
  exists b, isinstance_raw st v' cls = Ret b.
Proof.
  unfold isinstance_raw.
  destruct (Pos.eqb (type_of st v) cls); [discriminate |].
  destruct (Pos.eqb (type_of st v') cls); [intros _; now exists true |].
  destruct (content st cls) as [[| | | | ? ? [] ? | o args |] |];
    try discriminate; try (intros _; eexists; reflexivity).
  destruct (is_Union st o); [| discriminate].
  apply union_check_false_answers.
Qed.


(** Narrowing [None]: the answer is [None] unless the check raises. *)
Lemma try_downcast_of_None (t : addr) :
  try_downcast t rNone st =
  (match isinstance_raw st rNone (erased st t) with
   | Raise e => if is_None (erased st t) then Ret rNone else Raise e
   | Ret _ => Ret rNone
   end, st).
Proof.
  rewrite try_downcast_run.
  destruct (is_None (erased st t));
    destruct (isinstance_raw st rNone (erased st t)) as [[|] | e];
    reflexivity.
Qed.

End Composition.

(** ** What the instance check reads *)

Section Footprint.

Variables st st' : store.








End Footprint.

(** X1: [try_downcast] is idempotent.  Narrowing the result of
    [try_downcast(T, v)] to [T] again gives the outcome of the first call,
    for every target and every value: a present result stays present, an
    absent one stays absent (narrowing [None] never raises on a target that
    answered [False] before), and an exception is the same exception. *)
Theorem try_downcast_idempotent (st : store) (T v : addr) :
  (r <- try_downcast T v ;; try_downcast T r) st = try_downcast T v st.
Proof.
  unfold bind. rewrite (try_downcast_run st T v).
  destruct (is_None (erased st T)) eqn:EN.
  - rewrite try_downcast_of_None, EN.
    destruct (isinstance_raw st rNone (erased st T)) as [[|] | e]; reflexivity.
  - destruct (isinstance_raw st v (erased st T)) as [[|] | e] eqn:EI.
    + rewrite try_downcast_run, EN, EI. reflexivity.
    + rewrite try_downcast_of_None.
      destruct (isinstance_false_answers _ v rNone _ EI) as [b ->].
      reflexivity.
    + reflexivity.
Qed.

(** X2: [downcast] is idempotent.  [downcast(T, downcast(T, v))] has the
    outcome of [downcast(T, v)]: the same object when the check passes, the
    same exception when it does not. *)
Theorem downcast_idempotent (st : store) (T v : addr) :
  (r <- downcast T v ;; downcast T r) st = downcast T v st.
Proof.
  unfold bind. rewrite (downcast_run st T v).
  destruct (isinstance_raw st v T) as [[|] | e] eqn:EI; try reflexivity.
  now rewrite downcast_run, EI.
Qed.





(** X5: [try_downcast] never consults the type arguments of a parameterized
    target.  Two parameterized generics with the same (truthy) origin give
    the same outcome on every value, whatever their arguments and whatever
    the origin is, also when the check on it raises. *)
Theorem try_downcast_ignores_type_arguments
    (st : store) (A A' O : addr) (args args' : list addr) (v : addr) :
  content st A = Some (PAlias O args) ->
  content st A' = Some (PAlias O args') ->
  truthy st O = true ->
  try_downcast A v st = try_downcast A' v st.
Proof.
  intros HA HA' HO. rewrite !try_downcast_run.
  assert (HE : forall a l, content st a = Some (PAlias O l) -> erased st a = O).
  { intros a l Ha. unfold erased, get_origin_raw. now rewrite Ha, HO. }
  now rewrite (HE _ _ HA), (HE _ _ HA').
Qed.

Lemma try_downcast_ignores_type_arguments_witness :
  try_downcast t_Sequence_int v_strs py0
  = try_downcast t_Sequence_str v_strs py0.
Proof.
  apply (try_downcast_ignores_type_arguments
           py0 t_Sequence_int t_Sequence_str c_Sequence [c_int] [c_str] v_strs);
    reflexivity.
Defined.

(** X6: [None] never narrows to a present result.  Whatever the target
    (also [NoneType] or [object], of which [None] is an instance),
    [try_downcast(T, None)] either returns [None] or propagates the
    [TypeError] of the instance check. *)
Theorem try_downcast_None_is_absent (st : store) (T : addr) :
  try_downcast T rNone st = (Ret rNone, st)
  \/ try_downcast T rNone st = (Raise TypeError, st).
Proof.
  rewrite try_downcast_of_None.
  destruct (isinstance_raw st rNone (erased st T)) as [b | e] eqn:EI.
  - now left.
  - destruct (is_None (erased st T)); [now left |].
    right. now rewrite (isinstance_raise _ _ _ _ EI).
Qed.

(** X7: how [try_downcast] can fail.  It never raises [AssertionError]; the
    only exception it lets through is the [TypeError] of the instance check
    on a target other than [None], and then the store is as it was. *)
Theorem try_downcast_raises_only_TypeError
    (st st' : store) (T v : addr) (e : exn) :
  try_downcast T v st = (Raise e, st') ->
  e = TypeError /\ st' = st /\ T <> rNone
  /\ isinstance_raw st v (erased st T) = Raise TypeError.
Proof.
  rewrite try_downcast_run.
  destruct (is_None (erased st T)) eqn:EN; [discriminate |].
  destruct (isinstance_raw st v (erased st T)) as [[|] | e0] eqn:EI;
    try discriminate.
  intros H. inversion H; subst.
  pose proof (isinstance_raise _ _ _ _ EI) as ->.
  repeat split. intros ->. discriminate.
Qed.

Lemma try_downcast_raises_only_TypeError_witness :
  TypeError = TypeError /\ py0 = py0 /\ t_Any <> rNone
  /\ isinstance_raw py0 v_five (erased py0 t_Any) = Raise TypeError.
Proof.
  apply (try_downcast_raises_only_TypeError py0 py0 t_Any v_five TypeError).
  reflexivity.
Defined.



(** X9: narrowing through two targets.  [downcast(T2, downcast(T1, v))]
    returns [v] exactly when both instance checks answer [True]; so whether
    the chain succeeds does not depend on the order of the two targets, and
    when the first check fails the second is never made: the outcome is that
    of [downcast(T1, v)]. *)
Theorem downcast_chain (st : store) (T1 T2 v : addr) :
  ((r <- downcast T1 v ;; downcast T2 r) st = (Ret v, st)
   <-> isinstance_raw st v T1 = Ret true
       /\ isinstance_raw st v T2 = Ret true)
  /\ ((r <- downcast T1 v ;; downcast T2 r) st = (Ret v, st)
      <-> (r <- downcast T2 v ;; downcast T1 r) st = (Ret v, st))
  /\ (isinstance_raw st v T1 <> Ret true ->
      (r <- downcast T1 v ;; downcast T2 r) st = downcast T1 v st).
Proof.
  assert (H : forall a b,
             (r <- downcast a v ;; downcast b r) st = (Ret v, st)
             <-> isinstance_raw st v a = Ret true
                 /\ isinstance_raw st v b = Ret true).
  { intros a b. unfold bind. rewrite (downcast_run st a v).
    destruct (isinstance_raw st v a) as [[|] | e] eqn:Ea.
    - rewrite downcast_run.
      destruct (isinstance_raw st v b) as [[|] | e] eqn:Eb; split;
        try tauto; try discriminate; intros [_ ?]; discriminate.
    - split; [discriminate | intros [? _]; discriminate].
    - split; [discriminate | intros [? _]; discriminate]. }
  split; [apply H |]. split.
  - rewrite (H T1 T2), (H T2 T1). tauto.
  - intros Hn. unfold bind. rewrite (downcast_run st T1 v).
    destruct (isinstance_raw st v T1) as [[|] | e]; try reflexivity.
    now elim Hn.
Qed.

Lemma downcast_chain_witness :
  (r <- downcast c_Square v_circle ;; downcast c_Shape r) py0
  = downcast c_Square v_circle py0.
Proof.
  apply (downcast_chain py0 c_Square c_Shape v_circle). discriminate.
Defined.
